(** * A model of [mcp_overlay_server.py] (overlay_arrows_and_more_mcp)

    Python strings are sequences of Unicode code points; they are modelled
    as [list N].  Exceptions of class [Exception] are modelled by an error
    result carrying the exception class and its [str(e)] message.  The
    tool-call handler threads a log of the component invocations it makes,
    so that "which generator was invoked" is observable. *)

From Stdlib Require Import List Bool NArith ZArith Ascii String.
From Stdlib Require Import Numbers.DecimalString Lia.
Import ListNotations.
Set Warnings "-register-all".

(** ** Python strings *)

Definition pystr := list N.

(** An ASCII Rocq string read as a list of code points. *)
Fixpoint cps (s : string) : pystr :=
  match s with
  | EmptyString => []
  | String c s' => N_of_ascii c :: cps s'
  end.

Fixpoint pystr_eqb (a b : pystr) : bool :=
  match a, b with
  | [], [] => true
  | x :: a', y :: b' => N.eqb x y && pystr_eqb a' b'
  | _, _ => false
  end.

(** [str(n)] for a Python [int]. *)
Definition py_str_int (z : Z) : pystr :=
  cps (NilEmpty.string_of_int (Z.to_int z)).

(** [str.lower], one code point at a time.  Exact for every code point
    whose lower case lies in the Latin-1 range (ASCII and Latin-1 capitals,
    U+0178, U+0130 which lowers to "i" followed by U+0307, the Kelvin sign
    U+212A and the Angstrom sign U+212B); code points of other scripts are
    left unchanged by this model. *)
Definition py_lower_char (c : N) : pystr :=
  if (65 <=? c)%N && (c <=? 90)%N then [c + 32]%N
  else if (192 <=? c)%N && (c <=? 222)%N && negb (N.eqb c 215) then [c + 32]%N
  else if N.eqb c 376 then [255%N]
  else if N.eqb c 304 then [105%N; 775%N]
  else if N.eqb c 8490 then [107%N]
  else if N.eqb c 8491 then [229%N]
  else [c].

Definition py_lower (s : pystr) : pystr := flat_map py_lower_char s.

Fixpoint is_prefix (w s : pystr) : bool :=
  match w, s with
  | [], _ => true
  | x :: w', y :: s' => N.eqb x y && is_prefix w' s'
  | _ :: _, [] => false
  end.

(** [w in s] for Python strings: substring test. *)
Fixpoint py_contains (s w : pystr) : bool :=
  is_prefix w s || match s with [] => false | _ :: s' => py_contains s' w end.

(** [any(word in s for word in words)] *)
Definition any_in (words : list pystr) (s : pystr) : bool :=
  existsb (py_contains s) words.

(** [str.isspace] for a single code point (the characters [str.strip]
    removes). *)
Definition py_isspace (c : N) : bool :=
  ((9 <=? c)%N && (c <=? 13)%N) || ((28 <=? c)%N && (c <=? 32)%N)
  || N.eqb c 133 || N.eqb c 160 || N.eqb c 5760
  || ((8192 <=? c)%N && (c <=? 8202)%N)
  || N.eqb c 8232 || N.eqb c 8233 || N.eqb c 8239 || N.eqb c 8287
  || N.eqb c 12288.

Fixpoint lstrip (s : pystr) : pystr :=
  match s with
  | c :: s' => if py_isspace c then lstrip s' else s
  | [] => []
  end.

(** [str.strip()] *)
Definition py_strip (s : pystr) : pystr := rev (lstrip (rev (lstrip s))).

(** ** JSON values received as tool arguments *)

(** The values a decoded JSON request can hold (numbers as integers). *)
Inductive JsonVal :=
| JNull
| JBool (b : bool)
| JInt (z : Z)
| JStr (s : pystr)
| JArr (l : list JsonVal)
| JObj (l : list (pystr * JsonVal)).

(** Python truthiness: [not v] is [negb (truthy v)]. *)
Definition truthy (v : JsonVal) : bool :=
  match v with
  | JNull => false
  | JBool b => b
  | JInt z => negb (Z.eqb z 0)
  | JStr s => negb (pystr_eqb s [])
  | JArr l => match l with [] => false | _ => true end
  | JObj l => match l with [] => false | _ => true end
  end.

Definition type_name (v : JsonVal) : string :=
  match v with
  | JNull => "NoneType"
  | JBool _ => "bool"
  | JInt _ => "int"
  | JStr _ => "str"
  | JArr _ => "list"
  | JObj _ => "dict"
  end.

(** A Python [dict] with string keys, in insertion order. *)
Definition Dict := list (pystr * JsonVal).

(** The value bound to [k], if [k in d]. *)
Fixpoint dict_lookup (d : Dict) (k : pystr) : option JsonVal :=
  match d with
  | [] => None
  | (k', v) :: d' => if pystr_eqb k k' then Some v else dict_lookup d' k
  end.

(** [d.get(k, default)] *)
Definition dict_get (d : Dict) (k : pystr) (default : JsonVal) : JsonVal :=
  match dict_lookup d k with Some v => v | None => default end.

(** ** Exceptions *)

(** An exception: its class name and [str(e)]. *)
Record PyExc := mkExc { exc_class : string; exc_msg : pystr }.

Inductive Exc (A : Type) :=
| Ok (a : A)
| Err (e : PyExc).
Arguments Ok {A} a.
Arguments Err {A} e.

(** [prompt.lower()] on an arbitrary value: only [str] has it. *)
Definition py_lower_attr (v : JsonVal) : Exc pystr :=
  match v with
  | JStr s => Ok (py_lower s)
  | _ => Err (mkExc "AttributeError"
                (cps ("'" ++ type_name v ++ "' object has no attribute 'lower'")))
  end.

(** ** [generate_basic_overlay_code] *)

Definition ellipse_words : list pystr :=
  [cps "circle"; cps "ellipse"; cps "oval"; cps "rond"].
Definition arrow_words : list pystr :=
  [cps "arrow"; cps "line"; cps "pointer"; cps "fl" ++ [232%N] ++ cps "che";
   cps "ligne"].
Definition blue_words : list pystr := [cps "blue"; cps "bleu"].
Definition green_words : list pystr := [cps "green"; cps "vert"].
Definition yellow_words : list pystr := [cps "yellow"; cps "jaune"].
Definition black_words : list pystr := [cps "black"; cps "noir"].

Definition nl : pystr := [10%N].

(** The f-string of the source, with its placeholders as arguments. *)
Definition basic_code_fstring (shape : pystr) (x y width height thickness : Z)
    (color : pystr) (sleep_time : Z) : pystr :=
  cps "import overlay_arrows_and_more as oaam" ++ nl ++
  cps "import time" ++ nl ++ nl ++
  cps "main_overlay = oaam.Overlay()" ++ nl ++
  cps "main_overlay.add(geometry=" ++ shape ++
  cps ", x=" ++ py_str_int x ++ cps ", y=" ++ py_str_int y ++
  cps ", width=" ++ py_str_int width ++ cps ", height=" ++ py_str_int height ++
  cps ", thickness=" ++ py_str_int thickness ++ cps ", color=" ++ color ++
  cps ")" ++ nl ++
  cps "main_overlay.refresh()" ++ nl ++
  cps "time.sleep(" ++ py_str_int sleep_time ++ cps ")" ++ nl ++
  cps "main_overlay.clear_all()" ++ nl ++
  cps "main_overlay.refresh()".

(** [generate_basic_overlay_code(prompt)]; its [except Exception] turns the
    only failure of the body ([prompt.lower()] on a non-[str]) into a
    string.  The stderr print has no effect on the result. *)
Definition generate_basic_overlay_code (prompt : JsonVal) : pystr :=
  match py_lower_attr prompt with
  | Err e =>
      cps "ERROR: Could not generate basic code - " ++ exc_msg e
  | Ok prompt_lower =>
      let '(x, y) := (100%Z, 100%Z) in
      let '(width, height) := (200%Z, 100%Z) in
      let thickness := 3%Z in
      let color := cps "(255, 0, 0)" in
      let shape := cps "oaam.Shape.rectangle" in
      let sleep_time := 3%Z in
      let '(shape, width, height) :=
        if any_in ellipse_words prompt_lower then
          (cps "oaam.Shape.ellipse", width, height)
        else if any_in arrow_words prompt_lower then
          (cps "oaam.Shape.arrow", 100%Z, 20%Z)
        else (shape, width, height) in
      let color :=
        if any_in blue_words prompt_lower then cps "(0, 0, 255)"
        else if any_in green_words prompt_lower then cps "(0, 255, 0)"
        else if any_in yellow_words prompt_lower then cps "(255, 255, 0)"
        else if any_in black_words prompt_lower then cps "(0, 0, 0)"
        else color in
      basic_code_fstring shape x y width height thickness color sleep_time
  end.

(** ** The system prompt *)

Fixpoint join_lines (ls : list string) : pystr :=
  match ls with
  | [] => []
  | [l] => cps l
  | l :: ls' => cps l ++ nl ++ join_lines ls'
  end.

(** [SYSTEM_PROMPT = build_system_prompt()] *)
Definition SYSTEM_PROMPT : pystr :=
  join_lines
    ([ "You are a code generator that produces ONLY valid Python calls to the library overlay_arrows_and_more.";
      "The code must follow this exact pattern:";
      "";
      "import overlay_arrows_and_more as oaam";
      "import time";
      "";
      "main_overlay = oaam.Overlay()";
      "# transparent_overlay = oaam.Overlay(transparency=0.5)  # only if needed";
      "";
      "main_overlay.add(geometry=oaam.Shape.rectangle|ellipse|arrow, x=..., y=..., width=..., height=..., thickness=..., color=(r,g,b))";
      "main_overlay.refresh()";
      "time.sleep(<seconds>)";
      "main_overlay.clear_all()";
      "main_overlay.refresh()";
      "";
      "Rules:";
      "- Use ONLY the constants oaam.Shape.rectangle, oaam.Shape.ellipse, oaam.Shape.arrow.";
      "- Map everyday words (square, circle, line, etc.) to the closest constant above.";
      "- Convert English word-numbers (one, two, twenty) to integers.";
      "- No imports other than oaam and time, no loops, no comments, no screenshot.";
      "- If the request is impossible, answer exactly: ERROR: <one sentence>" ])%string.

(** ** The tool-call handler *)

Record TextContent := mkText { tc_type : pystr; tc_text : pystr }.

(** [TextContent(type="text", text=t)] *)
Definition text_content (t : pystr) : TextContent := mkText (cps "text") t.

(** The keyword arguments of [client.chat.completions.create]. *)
Record ChatRequest := mkChatRequest {
  req_model : pystr;
  req_messages : list (pystr * JsonVal);   (* (role, content) *)
  req_temperature : Z
}.

(** The invocations made by [call_tool], in the order they happen. *)
Inductive Event :=
| EvTryOpenAI (prompt : JsonVal)                (* entering the OpenAI path *)
| EvCompletion (api_key : pystr) (req : ChatRequest)  (* the network call *)
| EvBasic (prompt : JsonVal).        (* call of generate_basic_overlay_code *)

(** What the process environment provides to the OpenAI path: whether
    [from openai import AsyncOpenAI] succeeds, [os.environ.get('OPENAI_API_KEY')]
    and the completion service, which answers a request with the
    [message.content] of each of [reply.choices] or raises. *)
Record Env := mkEnv {
  openai_importable : bool;
  openai_api_key : option pystr;
  completion : pystr -> ChatRequest -> Exc (list (option pystr))
}.

(** Statements run in a state-and-exception monad; the state is the
    invocation log, newest event first, kept when an exception is raised. *)
Definition M (A : Type) := list Event -> Exc A * list Event.

Definition ret {A} (a : A) : M A := fun log => (Ok a, log).
Definition raise {A} (e : PyExc) : M A := fun log => (Err e, log).
Definition bind {A B} (m : M A) (k : A -> M B) : M B :=
  fun log => match m log with
             | (Ok a, log') => k a log'
             | (Err e, log') => (Err e, log')
             end.
Definition emit (ev : Event) : M unit := fun log => (Ok tt, ev :: log).
Definition lift {A} (r : Exc A) : M A := fun log => (r, log).
(** [try: m except Exception as e: h(e)] *)
Definition try_except {A} (m : M A) (h : PyExc -> M A) : M A :=
  fun log => match m log with
             | (Ok a, log') => (Ok a, log')
             | (Err e, log') => h e log'
             end.

Notation "x <- m ;; k" := (bind m (fun x => k))
  (at level 61, m at next level, right associativity).
Notation "m ;;; k" := (bind m (fun _ => k))
  (at level 61, right associativity).

Definition ValueError (msg : pystr) : PyExc := mkExc "ValueError" msg.

(** The inner [try] block of [call_tool]: the OpenAI path, up to the
    stripped reply text. *)
Definition openai_generate (env : Env) (prompt : JsonVal) : M pystr :=
  emit (EvTryOpenAI prompt) ;;;
  if negb (openai_importable env) then
    raise (mkExc "ModuleNotFoundError" (cps "No module named 'openai'"))
  else
  let api_key := openai_api_key env in
  match api_key with
  | None => raise (ValueError (cps "No OpenAI key"))
  | Some key =>
      if negb (truthy (JStr key)) then raise (ValueError (cps "No OpenAI key"))
      else
      let req := mkChatRequest (cps "gpt-4o-mini")
                   [(cps "system", JStr SYSTEM_PROMPT); (cps "user", prompt)] 0 in
      emit (EvCompletion key req) ;;;
      choices <- lift (completion env key req) ;;
      match choices with
      | [] => raise (mkExc "IndexError" (cps "list index out of range"))
      | None :: _ =>
          raise (mkExc "AttributeError"
                   (cps "'NoneType' object has no attribute 'strip'"))
      | Some content :: _ => ret (py_strip content)
      end
  end.

(** The call of [generate_basic_overlay_code(prompt)]. *)
Definition call_basic (prompt : JsonVal) : M pystr :=
  emit (EvBasic prompt) ;;; ret (generate_basic_overlay_code prompt).

Definition TOOL_NAME : pystr := cps "generate_overlay_script".

(** [call_tool(name, arguments)] *)
Definition call_tool (env : Env) (name : pystr) (arguments : Dict)
    : M (list TextContent) :=
  try_except
    (if negb (pystr_eqb name TOOL_NAME) then
       raise (ValueError (cps "Unknown tool: " ++ name))
     else
     let prompt := dict_get arguments (cps "prompt") (JStr []) in
     if negb (truthy prompt) then
       ret [text_content (cps "ERROR: No prompt provided")]
     else
     try_except
       (code <- openai_generate env prompt ;;
        ret [text_content code])
       (fun _ =>
          code <- call_basic prompt ;;
          ret [text_content code]))
    (fun e =>
       ret [text_content (cps "ERROR: Could not generate code - " ++ exc_msg e)]).

(** ** The Grammar Definition (spec side)

    The following definitions follow the spec's words (section 4.1 and the
    data model of section 3), to be compared with the code above. *)

Inductive ShapeConstant := Rectangle | Ellipse | Arrow.

Record DrawParameters := mkDraw {
  dp_shape : ShapeConstant;
  dp_x : Z; dp_y : Z; dp_width : Z; dp_height : Z; dp_thickness : Z;
  dp_color : Z * Z * Z;
  dp_duration : Z
}.

Definition shape_name (s : ShapeConstant) : string :=
  match s with
  | Rectangle => "rectangle" | Ellipse => "ellipse" | Arrow => "arrow"
  end.

Definition color_repr (c : Z * Z * Z) : pystr :=
  let '(r, g, b) := c in
  cps "(" ++ py_str_int r ++ cps ", " ++ py_str_int g ++ cps ", "
  ++ py_str_int b ++ cps ")".

Fixpoint join_nl (ls : list pystr) : pystr :=
  match ls with
  | [] => []
  | [l] => l
  | l :: ls' => l ++ nl ++ join_nl ls'
  end.

(** One instantiation of the template of section 4.1, line by line. *)
Definition grammar_instance (d : DrawParameters) : pystr :=
  join_nl
    [ cps "import overlay_arrows_and_more as oaam";
      cps "import time";
      [];
      cps "main_overlay = oaam.Overlay()";
      cps ("main_overlay.add(geometry=oaam.Shape." ++ shape_name (dp_shape d))
        ++ cps ", x=" ++ py_str_int (dp_x d)
        ++ cps ", y=" ++ py_str_int (dp_y d)
        ++ cps ", width=" ++ py_str_int (dp_width d)
        ++ cps ", height=" ++ py_str_int (dp_height d)
        ++ cps ", thickness=" ++ py_str_int (dp_thickness d)
        ++ cps ", color=" ++ color_repr (dp_color d) ++ cps ")";
      cps "main_overlay.refresh()";
      cps "time.sleep(" ++ py_str_int (dp_duration d) ++ cps ")";
      cps "main_overlay.clear_all()";
      cps "main_overlay.refresh()" ].

(** *** Reading a script back *)

Definition Parser (A : Type) := pystr -> option (A * pystr).

Definition p_bind {A B} (p : Parser A) (k : A -> Parser B) : Parser B :=
  fun s => match p s with Some (a, s') => k a s' | None => None end.

Notation "x <-- p ;; k" := (p_bind p (fun x => k))
  (at level 61, p at next level, right associativity).

Fixpoint p_lit (w : pystr) : Parser unit :=
  fun s =>
    match w, s with
    | [], _ => Some (tt, s)
    | c :: w', d :: s' => if N.eqb c d then p_lit w' s' else None
    | _ :: _, [] => None
    end.

Definition is_digit (c : N) : bool := (48 <=? c)%N && (c <=? 57)%N.
Definition is_lower (c : N) : bool := (97 <=? c)%N && (c <=? 122)%N.

(** The longest prefix of code points satisfying [f]. *)
Fixpoint p_span (f : N -> bool) (s : pystr) : pystr * pystr :=
  match s with
  | c :: s' => if f c then let '(a, r) := p_span f s' in (c :: a, r) else ([], s)
  | [] => ([], [])
  end.

Definition digits_value (ds : pystr) : Z :=
  fold_left (fun acc d => 10 * acc + Z.of_N (d - 48))%Z ds 0%Z.

(** A non-negative decimal integer literal. *)
Definition p_int : Parser Z :=
  fun s => match p_span is_digit s with
           | ([], _) => None
           | (ds, r) => Some (digits_value ds, r)
           end.

Definition shape_of_name (w : pystr) : option ShapeConstant :=
  if pystr_eqb w (cps "rectangle") then Some Rectangle
  else if pystr_eqb w (cps "ellipse") then Some Ellipse
  else if pystr_eqb w (cps "arrow") then Some Arrow
  else None.

Definition p_shape : Parser ShapeConstant :=
  fun s => let '(w, r) := p_span is_lower s in
           match shape_of_name w with Some sh => Some (sh, r) | None => None end.

(** Parses a whole script of the template's shape, [None] otherwise. *)
Definition parse_script (s : pystr) : option DrawParameters :=
  let p :=
    _ <-- p_lit (cps "import overlay_arrows_and_more as oaam" ++ nl
                 ++ cps "import time" ++ nl ++ nl
                 ++ cps "main_overlay = oaam.Overlay()" ++ nl
                 ++ cps "main_overlay.add(geometry=oaam.Shape.") ;;
    sh <-- p_shape ;;
    _ <-- p_lit (cps ", x=") ;; x <-- p_int ;;
    _ <-- p_lit (cps ", y=") ;; y <-- p_int ;;
    _ <-- p_lit (cps ", width=") ;; w <-- p_int ;;
    _ <-- p_lit (cps ", height=") ;; h <-- p_int ;;
    _ <-- p_lit (cps ", thickness=") ;; t <-- p_int ;;
    _ <-- p_lit (cps ", color=(") ;; r <-- p_int ;;
    _ <-- p_lit (cps ", ") ;; g <-- p_int ;;
    _ <-- p_lit (cps ", ") ;; b <-- p_int ;;
    _ <-- p_lit (cps "))" ++ nl ++ cps "main_overlay.refresh()" ++ nl
                 ++ cps "time.sleep(") ;;
    dur <-- p_int ;;
    _ <-- p_lit (cps ")" ++ nl ++ cps "main_overlay.clear_all()" ++ nl
                 ++ cps "main_overlay.refresh()") ;;
    (fun rest => Some (mkDraw sh x y w h t (r, g, b) dur, rest)) in
  match p s with
  | Some (d, []) => Some d
  | _ => None
  end.

(** ** The fallback's keyword tables, as the spec states them *)

Definition claim_ellipse_keywords : list pystr :=
  [cps "circle"; cps "ellipse"; cps "oval"; cps "rond"].
Definition claim_arrow_keywords : list pystr :=
  [cps "arrow"; cps "line"; cps "pointer"; cps "fl" ++ [232%N] ++ cps "che";
   cps "ligne"].

(** The prompt contains one of [kws], case-insensitively. *)
Definition mentions (p : pystr) (kws : list pystr) : Prop :=
  exists kw, In kw kws /\ py_contains (py_lower p) kw = true.

(** Shape and size: ellipse keywords first, then arrow keywords. *)
Definition claim_shape_size (p : pystr) : ShapeConstant * (Z * Z) :=
  if existsb (py_contains (py_lower p)) claim_ellipse_keywords
  then (Ellipse, (200, 100)%Z)
  else if existsb (py_contains (py_lower p)) claim_arrow_keywords
  then (Arrow, (100, 20)%Z)
  else (Rectangle, (200, 100)%Z).

Definition red : Z * Z * Z := (255, 0, 0)%Z.

(** The ordered color table; the first entry whose keywords occur wins. *)
Definition claim_color_table : list (list pystr * (Z * Z * Z)) :=
  [ ([cps "blue"; cps "bleu"], (0, 0, 255)%Z);
    ([cps "green"; cps "vert"], (0, 255, 0)%Z);
    ([cps "yellow"; cps "jaune"], (255, 255, 0)%Z);
    ([cps "black"; cps "noir"], (0, 0, 0)%Z) ].

Fixpoint first_color (pl : pystr) (tbl : list (list pystr * (Z * Z * Z)))
    : Z * Z * Z :=
  match tbl with
  | [] => red
  | (kws, c) :: tbl' =>
      if existsb (py_contains pl) kws then c else first_color pl tbl'
  end.

Definition claim_color (p : pystr) : Z * Z * Z :=
  first_color (py_lower p) claim_color_table.

(** The parameters the fallback is specified to draw with. *)
Definition claim_params (p : pystr) : DrawParameters :=
  let '(sh, (w, h)) := claim_shape_size p in
  mkDraw sh 100 100 w h 3 (claim_color p) 3.

(** Occurrences of [w] in [s]. *)
Fixpoint count_sub (s w : pystr) : nat :=
  (if is_prefix w s then 1 else 0)
  + match s with [] => 0 | _ :: s' => count_sub s' w end.

(** A process environment in which the OpenAI client is not installed. *)
Definition env_no_openai : Env :=
  mkEnv false None (fun _ _ => Ok []).

(** ** [list_tools] *)

(** [mcp.types.Tool]: the fields the server sets. *)
Record Tool := mkTool {
  tool_name : pystr;
  tool_description : pystr;
  tool_input_schema : JsonVal
}.

(** [list_tools()]; building the literal cannot raise, so its
    [except Exception] branch (returning [[]]) is unreachable. *)
Definition list_tools : list Tool :=
  [ mkTool (cps "generate_overlay_script")
      (cps "Natural language " ++ [8594%N] ++ cps " overlay_arrows_and_more Python script")
      (JObj [ (cps "type", JStr (cps "object"));
              (cps "properties",
                 JObj [(cps "prompt", JObj [(cps "type", JStr (cps "string"))])]);
              (cps "required", JArr [JStr (cps "prompt")]) ]) ].

(** The request [openai_generate] sends for [prompt]. *)
Definition openai_request (prompt : JsonVal) : ChatRequest :=
  mkChatRequest (cps "gpt-4o-mini")
    [(cps "system", JStr SYSTEM_PROMPT); (cps "user", prompt)] 0.


(** * Properties *)

Definition ex_d : DrawParameters := mkDraw Arrow 100 100 100 20 3 (0, 255, 0)%Z 3.
Example parse_grammar_instance_ex :
  parse_script (grammar_instance ex_d) = Some ex_d.
Proof. vm_compute. reflexivity. Qed.
Example gen_ex :
  generate_basic_overlay_code (JStr (cps "Draw a GREEN line"))
  = grammar_instance ex_d.
Proof. vm_compute. reflexivity. Qed.

Lemma first_color_code (pl : pystr) :
  first_color pl claim_color_table =
  if any_in blue_words pl then (0, 0, 255)%Z
  else if any_in green_words pl then (0, 255, 0)%Z
  else if any_in yellow_words pl then (255, 255, 0)%Z
  else if any_in black_words pl then (0, 0, 0)%Z
  else red.
Proof. reflexivity. Qed.

Lemma claim_shape_size_code (p : pystr) :
  claim_shape_size p =
  if any_in ellipse_words (py_lower p) then (Ellipse, (200, 100)%Z)
  else if any_in arrow_words (py_lower p) then (Arrow, (100, 20)%Z)
  else (Rectangle, (200, 100)%Z).
Proof. reflexivity. Qed.

(** The fallback on a [str] prompt is the template instantiated with the
    specified parameters. *)
Lemma generate_basic_str (p : pystr) :
  generate_basic_overlay_code (JStr p) = grammar_instance (claim_params p).
Proof.
  unfold claim_params, claim_color.
  rewrite first_color_code, claim_shape_size_code.
  unfold generate_basic_overlay_code, py_lower_attr.
  cbv beta iota zeta.
  destruct (any_in ellipse_words (py_lower p)), (any_in arrow_words (py_lower p));
  destruct (any_in blue_words (py_lower p)), (any_in green_words (py_lower p)),
    (any_in yellow_words (py_lower p)), (any_in black_words (py_lower p));
  vm_compute; reflexivity.
Qed.

Definition fallback_sizes : list (ShapeConstant * (Z * Z)) :=
  [(Ellipse, (200, 100)%Z); (Arrow, (100, 20)%Z); (Rectangle, (200, 100)%Z)].
Definition fallback_colors : list (Z * Z * Z) :=
  [red; (0, 0, 255)%Z; (0, 255, 0)%Z; (255, 255, 0)%Z; (0, 0, 0)%Z].

Lemma claim_shape_size_in (p : pystr) : In (claim_shape_size p) fallback_sizes.
Proof.
  rewrite claim_shape_size_code.
  destruct (any_in ellipse_words (py_lower p)), (any_in arrow_words (py_lower p));
  simpl; tauto.
Qed.

Lemma claim_color_in (p : pystr) : In (claim_color p) fallback_colors.
Proof.
  unfold claim_color. rewrite first_color_code.
  destruct (any_in blue_words (py_lower p)), (any_in green_words (py_lower p)),
    (any_in yellow_words (py_lower p)), (any_in black_words (py_lower p));
  simpl; tauto.
Qed.

(** Splits a goal on the fifteen parameter sets the fallback can draw
    with and evaluates each. *)
Ltac fallback_cases p :=
  let Hs := fresh "Hs" in let Hc := fresh "Hc" in
  pose proof (claim_shape_size_in p) as Hs;
  pose proof (claim_color_in p) as Hc;
  unfold claim_params;
  destruct (claim_shape_size p) as [?sh [?w ?h]];
  generalize dependent (claim_color p); intros ?c Hc;
  simpl in Hs, Hc;
  repeat (destruct Hs as [Hs | Hs]; [injection Hs; intros; subst |]);
  try contradiction;
  repeat (destruct Hc as [Hc | Hc]; [subst |]);
  try contradiction.

Lemma mentions_existsb (p : pystr) (kws : list pystr) :
  mentions p kws <-> existsb (py_contains (py_lower p)) kws = true.
Proof.
  unfold mentions. rewrite existsb_exists. reflexivity.
Qed.

(** [(C1)] For every non-empty prompt string, the fallback generator returns
    exactly one instantiation of the Grammar Definition template (which
    parses back), with exactly one add call, and the result does not begin
    with ["ERROR:"]. *)
Theorem fallback_single_instance (p : pystr) (Hne : p <> []) :
  (exists d, generate_basic_overlay_code (JStr p) = grammar_instance d
             /\ parse_script (generate_basic_overlay_code (JStr p)) = Some d)
  /\ count_sub (generate_basic_overlay_code (JStr p)) (cps "main_overlay.add(") = 1%nat
  /\ is_prefix (cps "ERROR:") (generate_basic_overlay_code (JStr p)) = false.
Proof.
  clear Hne. rewrite generate_basic_str.
  split; [exists (claim_params p); split; [reflexivity |] |].
  - fallback_cases p; vm_compute; reflexivity.
  - fallback_cases p; vm_compute; split; reflexivity.
Qed.

Lemma fallback_single_instance_witness :
  cps "hello" <> []
  /\ (exists d, generate_basic_overlay_code (JStr (cps "hello")) = grammar_instance d
        /\ parse_script (generate_basic_overlay_code (JStr (cps "hello"))) = Some d)
  /\ count_sub (generate_basic_overlay_code (JStr (cps "hello")))
       (cps "main_overlay.add(") = 1%nat
  /\ is_prefix (cps "ERROR:") (generate_basic_overlay_code (JStr (cps "hello"))) = false.
Proof.
  assert (H : cps "hello" <> []) by discriminate.
  split; [exact H | apply (fallback_single_instance (cps "hello") H)].
Defined.

(** [(C5)] Shape selection: ellipse keywords take priority (default size
    200x100), then arrow keywords (size 100x20), else rectangle; on the
    spec's examples, "draw a blue circle" gives a blue ellipse and "draw an
    arrow pointing right" a red 100x20 arrow. *)
Theorem fallback_shape_priority (p : pystr) :
  (mentions p claim_ellipse_keywords ->
     exists c, generate_basic_overlay_code (JStr p)
               = grammar_instance (mkDraw Ellipse 100 100 200 100 3 c 3))
  /\ (~ mentions p claim_ellipse_keywords -> mentions p claim_arrow_keywords ->
     exists c, generate_basic_overlay_code (JStr p)
               = grammar_instance (mkDraw Arrow 100 100 100 20 3 c 3))
  /\ (~ mentions p claim_ellipse_keywords -> ~ mentions p claim_arrow_keywords ->
     exists c, generate_basic_overlay_code (JStr p)
               = grammar_instance (mkDraw Rectangle 100 100 200 100 3 c 3))
  /\ generate_basic_overlay_code (JStr (cps "draw a blue circle"))
     = grammar_instance (mkDraw Ellipse 100 100 200 100 3 (0, 0, 255)%Z 3)
  /\ generate_basic_overlay_code (JStr (cps "draw an arrow pointing right"))
     = grammar_instance (mkDraw Arrow 100 100 100 20 3 red 3).
Proof.
  rewrite !mentions_existsb, generate_basic_str.
  unfold claim_params, claim_shape_size.
  split; [intros He | split; [intros He Ha | split; [intros He Ha | split]]];
    [| | | vm_compute; reflexivity | vm_compute; reflexivity].
  - rewrite He. eexists. reflexivity.
  - apply not_true_is_false in He. rewrite He, Ha. eexists. reflexivity.
  - apply not_true_is_false in He. apply not_true_is_false in Ha.
    rewrite He, Ha. eexists. reflexivity.
Qed.

Lemma fallback_shape_priority_witness :
  mentions (cps "an oval") claim_ellipse_keywords
  /\ exists c, generate_basic_overlay_code (JStr (cps "an oval"))
               = grammar_instance (mkDraw Ellipse 100 100 200 100 3 c 3).
Proof.
  assert (H : mentions (cps "an oval") claim_ellipse_keywords)
    by (apply mentions_existsb; vm_compute; reflexivity).
  split; [exact H | apply (proj1 (fallback_shape_priority (cps "an oval"))); exact H].
Defined.

Lemma first_color_first_match (pl : pystr) tbl :
  forall i kws c,
  nth_error tbl i = Some (kws, c) ->
  existsb (py_contains pl) kws = true ->
  (forall j kws' c', (j < i)%nat -> nth_error tbl j = Some (kws', c') ->
                     existsb (py_contains pl) kws' = false) ->
  first_color pl tbl = c.
Proof.
  induction tbl as [| [kws0 c0] tbl IH]; intros i kws c Hi Hm Hbefore.
  - destruct i; discriminate.
  - destruct i as [| i]; simpl in Hi |- *.
    + injection Hi as <- <-. rewrite Hm. reflexivity.
    + rewrite (Hbefore 0%nat kws0 c0) by (reflexivity || apply PeanoNat.Nat.lt_0_succ).
      apply (IH i kws c Hi Hm).
      intros j kws' c' Hj Hn.
      apply (Hbefore (S j) kws' c'); [apply PeanoNat.Nat.succ_lt_mono in Hj; exact Hj | exact Hn].
Qed.

Lemma first_color_none (pl : pystr) tbl :
  (forall kws c, In (kws, c) tbl -> existsb (py_contains pl) kws = false) ->
  first_color pl tbl = red.
Proof.
  induction tbl as [| [kws0 c0] tbl IH]; intros Hnone; simpl; [reflexivity |].
  rewrite (Hnone kws0 c0) by (left; reflexivity).
  apply IH. intros kws c Hin. apply (Hnone kws c). right. exact Hin.
Qed.

(** [(C6)] Color selection: the fallback draws with the color of the first
    entry of the ordered table (blue, green, yellow, black, each with its
    French variant) whose keywords occur, red when none does, whatever the
    shape; "draw a green square" gives a green rectangle. *)
Theorem fallback_color_first_match (p : pystr) :
  (exists sh w h, claim_shape_size p = (sh, (w, h))
     /\ generate_basic_overlay_code (JStr p)
        = grammar_instance (mkDraw sh 100 100 w h 3 (claim_color p) 3))
  /\ (forall i kws c,
        nth_error claim_color_table i = Some (kws, c) -> mentions p kws ->
        (forall j kws' c', (j < i)%nat ->
           nth_error claim_color_table j = Some (kws', c') -> ~ mentions p kws') ->
        claim_color p = c)
  /\ ((forall kws c, In (kws, c) claim_color_table -> ~ mentions p kws) ->
      claim_color p = red)
  /\ generate_basic_overlay_code (JStr (cps "draw a green square"))
     = grammar_instance (mkDraw Rectangle 100 100 200 100 3 (0, 255, 0)%Z 3).
Proof.
  split; [| split; [| split]].
  - rewrite generate_basic_str. unfold claim_params.
    destruct (claim_shape_size p) as [sh [w h]]. exists sh, w, h. split; reflexivity.
  - intros i kws c Hi Hm Hbefore. unfold claim_color.
    apply (first_color_first_match _ _ i kws c Hi); [apply mentions_existsb; exact Hm |].
    intros j kws' c' Hj Hn. apply not_true_is_false.
    rewrite <- mentions_existsb. exact (Hbefore j kws' c' Hj Hn).
  - intros Hnone. unfold claim_color. apply first_color_none.
    intros kws c Hin. apply not_true_is_false. rewrite <- mentions_existsb.
    exact (Hnone kws c Hin).
  - vm_compute. reflexivity.
Qed.

Lemma fallback_color_first_match_witness :
  nth_error claim_color_table 1 = Some ([cps "green"; cps "vert"], (0, 255, 0)%Z)
  /\ mentions (cps "a green line") [cps "green"; cps "vert"]
  /\ claim_color (cps "a green line") = (0, 255, 0)%Z.
Proof.
  assert (H1 : nth_error claim_color_table 1
               = Some ([cps "green"; cps "vert"], (0, 255, 0)%Z)) by reflexivity.
  assert (H2 : mentions (cps "a green line") [cps "green"; cps "vert"])
    by (apply mentions_existsb; vm_compute; reflexivity).
  split; [exact H1 | split; [exact H2 |]].
  apply (proj1 (proj2 (fallback_color_first_match (cps "a green line"))) 1%nat _ _ H1 H2).
  intros j kws' c' Hj Hn.
  destruct j as [| j]; [| apply PeanoNat.Nat.succ_lt_mono in Hj; inversion Hj].
  injection Hn as <- <-. rewrite mentions_existsb. vm_compute. discriminate.
Defined.

(** [(C7)] Every fallback script has x = 100, y = 100, thickness 3 and a
    3-second sleep; the size is 200x100 except for the arrow override 100x20,
    and the color is one of the five fixed palette entries. *)
Theorem fallback_fixed_numbers (p : pystr) :
  exists sh w h c,
    generate_basic_overlay_code (JStr p)
    = grammar_instance (mkDraw sh 100 100 w h 3 c 3)
    /\ ((sh <> Arrow /\ (w, h) = (200, 100)%Z) \/ (sh = Arrow /\ (w, h) = (100, 20)%Z))
    /\ In c fallback_colors.
Proof.
  rewrite generate_basic_str. pose proof (claim_color_in p) as Hc.
  pose proof (claim_shape_size_in p) as Hs. unfold claim_params.
  destruct (claim_shape_size p) as [sh [w h]].
  exists sh, w, h, (claim_color p). split; [reflexivity | split; [| exact Hc]].
  simpl in Hs.
  destruct Hs as [E | [E | [E | []]]]; injection E as <- <- <-;
    [left | right | left]; split; (discriminate || reflexivity).
Qed.

(** [(C8)] The fallback is a function of the lower-cased prompt text alone,
    and parsing any fallback script back recovers the shape and color the
    keyword matching selected. *)
Theorem fallback_deterministic_roundtrip :
  (forall p q, py_lower p = py_lower q ->
     generate_basic_overlay_code (JStr p) = generate_basic_overlay_code (JStr q))
  /\ (forall p, exists d,
        parse_script (generate_basic_overlay_code (JStr p)) = Some d
        /\ dp_shape d = fst (claim_shape_size p)
        /\ dp_color d = claim_color p).
Proof.
  split.
  - intros p q E. unfold generate_basic_overlay_code, py_lower_attr.
    rewrite E. reflexivity.
  - intros p. exists (claim_params p).
    rewrite generate_basic_str.
    split; [| unfold claim_params; destruct (claim_shape_size p) as [sh [w h]];
              split; reflexivity].
    fallback_cases p; vm_compute; reflexivity.
Qed.

Lemma fallback_deterministic_roundtrip_witness :
  py_lower (cps "BLUE Circle") = py_lower (cps "blue circle")
  /\ generate_basic_overlay_code (JStr (cps "BLUE Circle"))
     = generate_basic_overlay_code (JStr (cps "blue circle")).
Proof.
  assert (H : py_lower (cps "BLUE Circle") = py_lower (cps "blue circle"))
    by (vm_compute; reflexivity).
  split; [exact H | apply (proj1 fallback_deterministic_roundtrip); exact H].
Defined.

(** *** The tool-call handler *)

Lemma pystr_eqb_eq (a b : pystr) : pystr_eqb a b = true <-> a = b.
Proof.
  revert b; induction a as [| x a IH]; intros [| y b]; simpl;
    try (split; [discriminate | congruence]); [split; reflexivity |].
  rewrite andb_true_iff, N.eqb_eq, IH.
  split; [intros [-> ->]; reflexivity | intros E; injection E as -> ->; split; reflexivity].
Qed.

Lemma pystr_eqb_refl (a : pystr) : pystr_eqb a a = true.
Proof. apply pystr_eqb_eq. reflexivity. Qed.

Lemma call_tool_unknown_name (env : Env) (name : pystr) (arguments : Dict)
    (log : list Event) :
  name <> TOOL_NAME ->
  call_tool env name arguments log
  = (Ok [text_content (cps "ERROR: Could not generate code - Unknown tool: " ++ name)],
     log).
Proof.
  intros Hn. unfold call_tool, try_except.
  destruct (pystr_eqb name TOOL_NAME) eqn:E;
    [apply pystr_eqb_eq in E; contradiction |].
  reflexivity.
Qed.

(** The handler on the recognized tool name, with the prompt argument
    [prompt] (defaulting to the empty string). *)
Lemma call_tool_known (env : Env) (arguments : Dict) (log : list Event) :
  call_tool env TOOL_NAME arguments log
  = let prompt := dict_get arguments (cps "prompt") (JStr []) in
    if negb (truthy prompt) then
      (Ok [text_content (cps "ERROR: No prompt provided")], log)
    else
      match openai_generate env prompt log with
      | (Ok code, log') => (Ok [text_content code], log')
      | (Err _, log') =>
          (Ok [text_content (generate_basic_overlay_code prompt)],
           EvBasic prompt :: log')
      end.
Proof.
  unfold call_tool, try_except. rewrite pystr_eqb_refl. cbv zeta.
  set (pr := dict_get arguments (cps "prompt") (JStr [])).
  destruct (truthy pr); [| reflexivity].
  cbv [negb bind ret call_basic emit].
  destruct (openai_generate env pr log) as [[code | e] log']; reflexivity.
Qed.

(** [(C2)] (amended) A request naming any operation other than
    [generate_overlay_script] is answered with the single text item
    ["ERROR: Could not generate code - Unknown tool: <name>"], and neither
    the OpenAI path nor the fallback is invoked (the log is unchanged). *)
Theorem call_tool_unknown_tool_text (env : Env) (name : pystr) (arguments : Dict)
    (log : list Event) (Hn : name <> TOOL_NAME) :
  call_tool env name arguments log
  = (Ok [text_content (cps "ERROR: Could not generate code - Unknown tool: " ++ name)],
     log).
Proof. apply call_tool_unknown_name. exact Hn. Qed.

Lemma call_tool_unknown_tool_text_witness :
  cps "draw" <> TOOL_NAME
  /\ call_tool env_no_openai (cps "draw") [] []
     = (Ok [text_content (cps "ERROR: Could not generate code - Unknown tool: draw")], []).
Proof.
  assert (H : cps "draw" <> TOOL_NAME) by discriminate.
  split; [exact H | apply (call_tool_unknown_tool_text env_no_openai (cps "draw") [] [] H)].
Defined.

(** [(C2)] Counterexample: an unknown tool name is not signalled as a
    raised error; the handler returns a textual [ERROR:] result. *)
Lemma call_tool_unknown_not_raised :
  call_tool env_no_openai (cps "draw") [] []
  = (Ok [text_content (cps "ERROR: Could not generate code - Unknown tool: draw")], [])
  /\ forall e log', call_tool env_no_openai (cps "draw") [] [] <> (Err e, log').
Proof.
  split; [vm_compute; reflexivity |].
  intros e log' H. vm_compute in H. discriminate.
Qed.

(** [(C3)] When the [prompt] argument is absent or the empty string, the
    handler returns exactly ["ERROR: No prompt provided"] and invokes
    neither generator (the log is unchanged). *)
Theorem call_tool_no_prompt (env : Env) (arguments : Dict) (log : list Event)
    (Hp : dict_lookup arguments (cps "prompt") = None
          \/ dict_lookup arguments (cps "prompt") = Some (JStr [])) :
  call_tool env TOOL_NAME arguments log
  = (Ok [text_content (cps "ERROR: No prompt provided")], log).
Proof.
  rewrite call_tool_known. cbv zeta. unfold dict_get.
  destruct Hp as [-> | ->]; reflexivity.
Qed.

Lemma call_tool_no_prompt_witness :
  (dict_lookup [] (cps "prompt") = None
   \/ dict_lookup [] (cps "prompt") = Some (JStr []))
  /\ call_tool env_no_openai TOOL_NAME [] []
     = (Ok [text_content (cps "ERROR: No prompt provided")], []).
Proof.
  assert (H : dict_lookup [] (cps "prompt") = None
              \/ dict_lookup [] (cps "prompt") = Some (JStr [])) by (left; reflexivity).
  split; [exact H | apply (call_tool_no_prompt env_no_openai [] [] H)].
Defined.

(** [(C4)] Whenever the OpenAI path fails, whatever the failure, the handler
    returns exactly the fallback's string for the same prompt. *)
Theorem call_tool_llm_failure_fallback (env : Env) (arguments : Dict)
    (log log' : list Event) (prompt : JsonVal) (e : PyExc)
    (Hp : dict_get arguments (cps "prompt") (JStr []) = prompt)
    (Ht : truthy prompt = true)
    (Hf : openai_generate env prompt log = (Err e, log')) :
  call_tool env TOOL_NAME arguments log
  = (Ok [text_content (generate_basic_overlay_code prompt)], EvBasic prompt :: log').
Proof.
  rewrite call_tool_known. cbv zeta. rewrite Hp, Ht. simpl negb. cbv iota.
  rewrite Hf. reflexivity.
Qed.

Lemma call_tool_llm_failure_fallback_witness :
  call_tool env_no_openai TOOL_NAME [(cps "prompt", JStr (cps "draw a circle"))] []
  = (Ok [text_content (generate_basic_overlay_code (JStr (cps "draw a circle")))],
     [EvBasic (JStr (cps "draw a circle")); EvTryOpenAI (JStr (cps "draw a circle"))]).
Proof.
  apply (call_tool_llm_failure_fallback env_no_openai
           [(cps "prompt", JStr (cps "draw a circle"))] [] 
           [EvTryOpenAI (JStr (cps "draw a circle"))] (JStr (cps "draw a circle"))
           (mkExc "ModuleNotFoundError" (cps "No module named 'openai'")));
    vm_compute; reflexivity.
Defined.

(** [(C9)] The handler is total: for every tool name and arguments it
    returns a one-element list holding a text item, no exception escapes;
    an unknown name gives ["ERROR: Could not generate code - Unknown tool:
    <name>"]. *)
Theorem call_tool_total (env : Env) (name : pystr) (arguments : Dict)
    (log : list Event) :
  (exists t log', call_tool env name arguments log = (Ok [t], log')
                  /\ tc_type t = cps "text")
  /\ (name <> TOOL_NAME ->
      call_tool env name arguments log
      = (Ok [text_content (cps "ERROR: Could not generate code - Unknown tool: "
                           ++ name)], log)).
Proof.
  destruct (pystr_eqb name TOOL_NAME) eqn:E.
  - apply pystr_eqb_eq in E. subst name.
    split; [| intros Hn; contradiction].
    rewrite call_tool_known. cbv zeta.
    destruct (negb (truthy (dict_get arguments (cps "prompt") (JStr []))));
      [eexists; eexists; split; reflexivity |].
    destruct (openai_generate env (dict_get arguments (cps "prompt") (JStr [])) log)
      as [[code | e] log']; eexists; eexists; split; reflexivity.
  - assert (Hn : name <> TOOL_NAME)
      by (intros H; subst name; rewrite pystr_eqb_refl in E; discriminate).
    split; [| intros _; apply call_tool_unknown_name; exact Hn].
    rewrite (call_tool_unknown_name env name arguments log Hn).
    eexists; eexists; split; reflexivity.
Qed.

Lemma call_tool_total_witness :
  cps "list_tools" <> TOOL_NAME
  /\ call_tool env_no_openai (cps "list_tools") [] []
     = (Ok [text_content (cps "ERROR: Could not generate code - Unknown tool: list_tools")],
        []).
Proof.
  assert (H : cps "list_tools" <> TOOL_NAME) by discriminate.
  split; [exact H |].
  apply (proj2 (call_tool_total env_no_openai (cps "list_tools") [] []) H).
Defined.

(** *** Whitespace-only prompts *)

Lemma py_lower_char_space (c : N) : py_isspace c = true -> py_lower_char c = [c].
Proof.
  intros H. unfold py_isspace in H.
  rewrite ?orb_true_iff, ?andb_true_iff, ?N.leb_le, ?N.eqb_eq in H.
  unfold py_lower_char.
  repeat match goal with
  | |- context [if ?b then _ else _] =>
      let E := fresh "E" in
      destruct b eqn:E;
      [exfalso; rewrite ?andb_true_iff, ?N.leb_le, ?N.eqb_eq in E; lia |]
  end.
  reflexivity.
Qed.

Lemma py_lower_space (p : pystr) : forallb py_isspace p = true -> py_lower p = p.
Proof.
  induction p as [| c p IH]; simpl; [reflexivity |].
  rewrite andb_true_iff. intros [Hc Hp].
  unfold py_lower in IH |- *. simpl. rewrite py_lower_char_space, IH by assumption.
  reflexivity.
Qed.

Lemma py_contains_head (s : pystr) (c : N) (w : pystr) :
  py_contains s (c :: w) = true -> In c s.
Proof.
  induction s as [| x s IH]; simpl; [discriminate |].
  rewrite orb_true_iff, andb_true_iff, N.eqb_eq.
  intros [[-> _] | H]; [left; reflexivity | right; apply IH; exact H].
Qed.

(** Every keyword starts with a code point that is not whitespace. *)
Definition starts_visible (kw : pystr) : bool :=
  match kw with c :: _ => negb (py_isspace c) | [] => false end.

Lemma no_keyword_in_space (p : pystr) (kws : list pystr) :
  forallb py_isspace p = true -> forallb starts_visible kws = true ->
  existsb (py_contains p) kws = false.
Proof.
  intros Hp Hk. apply not_true_is_false. rewrite existsb_exists.
  intros [[| c w] [Hin Hc]];
    rewrite forallb_forall in Hk; specialize (Hk _ Hin); simpl in Hk;
    [discriminate |].
  apply py_contains_head in Hc. rewrite forallb_forall in Hp.
  rewrite (Hp c Hc) in Hk. discriminate.
Qed.

Lemma openai_generate_logs (env : Env) (prompt : JsonVal) (log : list Event) :
  In (EvTryOpenAI prompt) (snd (openai_generate env prompt log)).
Proof.
  unfold openai_generate, bind, emit, raise, lift, ret.
  destruct (openai_importable env); simpl; [| left; reflexivity].
  destruct (openai_api_key env) as [key |]; simpl; [| left; reflexivity].
  destruct (negb (pystr_eqb key [])); simpl; [| left; reflexivity].
  destruct (completion env key _) as [[| [content |] rest] | e]; simpl;
    right; left; reflexivity.
Qed.

(** The script drawn for a prompt without keywords: a red 200x100
    rectangle shown for 3 seconds. *)
Definition default_script : pystr :=
  grammar_instance (mkDraw Rectangle 100 100 200 100 3 red 3).

(** [(C10)] A non-empty prompt made only of whitespace passes the emptiness
    check: the handler proceeds to the OpenAI path, and on the fallback path
    answers with the default red rectangle script. *)
Theorem call_tool_whitespace_prompt (env : Env) (arguments : Dict)
    (log : list Event) (p : pystr)
    (Hp : dict_lookup arguments (cps "prompt") = Some (JStr p))
    (Hne : p <> []) (Hsp : forallb py_isspace p = true) :
  call_tool env TOOL_NAME arguments log
  = match openai_generate env (JStr p) log with
    | (Ok code, log') => (Ok [text_content code], log')
    | (Err _, log') => (Ok [text_content default_script], EvBasic (JStr p) :: log')
    end
  /\ In (EvTryOpenAI (JStr p)) (snd (call_tool env TOOL_NAME arguments log)).
Proof.
  assert (Hgen : generate_basic_overlay_code (JStr p) = default_script).
  { rewrite generate_basic_str. unfold claim_params, claim_shape_size, claim_color.
    rewrite py_lower_space by exact Hsp.
    rewrite !(no_keyword_in_space p) by (exact Hsp || reflexivity).
    rewrite first_color_none; [reflexivity |].
    intros kws c Hin. apply no_keyword_in_space; [exact Hsp |].
    simpl in Hin. repeat (destruct Hin as [Hin | Hin]; [injection Hin as <- <-; reflexivity |]).
    contradiction. }
  assert (Htr : truthy (JStr p) = true).
  { simpl. destruct p; [contradiction | reflexivity]. }
  assert (Heq : call_tool env TOOL_NAME arguments log
    = match openai_generate env (JStr p) log with
      | (Ok code, log') => (Ok [text_content code], log')
      | (Err _, log') => (Ok [text_content default_script], EvBasic (JStr p) :: log')
      end).
  { rewrite call_tool_known. cbv zeta. unfold dict_get. rewrite Hp, Htr.
    cbv [negb]. rewrite Hgen. reflexivity. }
  split; [exact Heq |].
  rewrite Heq. pose proof (openai_generate_logs env (JStr p) log) as Hl.
  destruct (openai_generate env (JStr p) log) as [[code | e] log']; simpl in *;
    [exact Hl | right; exact Hl].
Qed.

Lemma call_tool_whitespace_prompt_witness :
  call_tool env_no_openai TOOL_NAME [(cps "prompt", JStr (cps "  "))] []
  = (Ok [text_content default_script],
     [EvBasic (JStr (cps "  ")); EvTryOpenAI (JStr (cps "  "))]).
Proof.
  refine (eq_trans
    (proj1 (call_tool_whitespace_prompt env_no_openai
              [(cps "prompt", JStr (cps "  "))] [] (cps "  ")
              eq_refl _ eq_refl)) _);
    [discriminate | vm_compute; reflexivity].
Defined.

(** ** Further properties of the server *)

Lemma openai_generate_trace (env : Env) (p : JsonVal) (log : list Event) :
  exists new, snd (openai_generate env p log) = new ++ log
    /\ (new = [EvTryOpenAI p]
        \/ exists k, new = [EvCompletion k (openai_request p); EvTryOpenAI p]).
Proof.
  unfold openai_generate, bind, emit, raise, lift, ret.
  destruct (openai_importable env); simpl;
    [| exists [EvTryOpenAI p]; split; [reflexivity | left; reflexivity]].
  destruct (openai_api_key env) as [key |]; simpl;
    [| exists [EvTryOpenAI p]; split; [reflexivity | left; reflexivity]].
  destruct (negb (pystr_eqb key [])); simpl;
    [| exists [EvTryOpenAI p]; split; [reflexivity | left; reflexivity]].
  exists [EvCompletion key (openai_request p); EvTryOpenAI p].
  split; [| right; exists key; reflexivity].
  destruct (completion env key _) as [[| [content |] rest] | e]; reflexivity.
Qed.

Lemma openai_generate_success (env : Env) (p : JsonVal) (log : list Event)
    (k c : pystr) (rest : list (option pystr)) :
  openai_importable env = true -> openai_api_key env = Some k -> k <> [] ->
  completion env k (openai_request p) = Ok (Some c :: rest) ->
  openai_generate env p log
  = (Ok (py_strip c), EvCompletion k (openai_request p) :: EvTryOpenAI p :: log).
Proof.
  intros Hi Hk Hne Hc.
  unfold openai_generate, bind, emit, raise, lift, ret.
  rewrite Hi, Hk. destruct k as [| x k]; [contradiction |].
  cbv beta iota zeta delta [negb truthy pystr_eqb]. fold (openai_request p). rewrite Hc. reflexivity.
Qed.

Lemma openai_generate_unavailable (env : Env) (p : JsonVal) (log : list Event) :
  openai_importable env = false \/ openai_api_key env = None
  \/ openai_api_key env = Some [] ->
  exists e, openai_generate env p log = (Err e, EvTryOpenAI p :: log).
Proof.
  intros H. unfold openai_generate, bind, emit, raise, lift, ret.
  destruct H as [-> | [-> | ->]]; simpl; try destruct (openai_importable env);
    eexists; reflexivity.
Qed.

Lemma openai_generate_bad_reply (env : Env) (p : JsonVal) (log : list Event)
    (k : pystr) :
  openai_importable env = true -> openai_api_key env = Some k -> k <> [] ->
  (exists e, completion env k (openai_request p) = Err e)
  \/ completion env k (openai_request p) = Ok []
  \/ (exists rest, completion env k (openai_request p) = Ok (None :: rest)) ->
  exists e, openai_generate env p log
            = (Err e, EvCompletion k (openai_request p) :: EvTryOpenAI p :: log).
Proof.
  intros Hi Hk Hne Hc.
  unfold openai_generate, bind, emit, raise, lift, ret.
  rewrite Hi, Hk. destruct k as [| x k]; [contradiction |].
  cbv beta iota zeta delta [negb truthy pystr_eqb]. fold (openai_request p).
  destruct Hc as [[e He] | [He | [rest He]]]; rewrite He; eexists; reflexivity.
Qed.


(** [(X1)] The single tool advertised by [list_tools] is the one name
    [call_tool] accepts, and its schema requires the [prompt] key that
    [call_tool] reads: an advertised name called without arguments reaches
    the prompt check, any other name is answered as an unknown tool. *)
Theorem list_tools_matches_call_tool (env : Env) (name : pystr) (log : list Event) :
  (In name (map tool_name list_tools) ->
   call_tool env name [] log
   = (Ok [text_content (cps "ERROR: No prompt provided")], log))
  /\ (~ In name (map tool_name list_tools) ->
      call_tool env name [] log
      = (Ok [text_content (cps "ERROR: Could not generate code - Unknown tool: "
                           ++ name)], log))
  /\ Forall (fun t => match tool_input_schema t with
                      | JObj o => dict_lookup o (cps "required")
                                  = Some (JArr [JStr (cps "prompt")])
                      | _ => False
                      end) list_tools.
Proof.
  split; [| split].
  - intros [<- | []]. rewrite call_tool_known. reflexivity.
  - intros Hn. apply call_tool_unknown_name.
    intros ->. apply Hn. left. reflexivity.
  - repeat constructor.
Qed.

Lemma list_tools_matches_call_tool_witness :
  In TOOL_NAME (map tool_name list_tools)
  /\ call_tool env_no_openai TOOL_NAME [] []
     = (Ok [text_content (cps "ERROR: No prompt provided")], []).
Proof.
  assert (H : In TOOL_NAME (map tool_name list_tools)) by (left; reflexivity).
  split; [exact H | apply (proj1 (list_tools_matches_call_tool env_no_openai TOOL_NAME []) H)].
Defined.

Lemma call_tool_with_prompt (env : Env) (arguments : Dict) (log : list Event)
    (p : JsonVal) :
  dict_get arguments (cps "prompt") (JStr []) = p -> truthy p = true ->
  call_tool env TOOL_NAME arguments log
  = match openai_generate env p log with
    | (Ok code, log') => (Ok [text_content code], log')
    | (Err _, log') =>
        (Ok [text_content (generate_basic_overlay_code p)], EvBasic p :: log')
    end.
Proof.
  intros Hp Ht. rewrite call_tool_known. cbv zeta. rewrite Hp, Ht. reflexivity.
Qed.

Lemma lstrip_suffix (r : pystr) : exists pre, r = pre ++ lstrip r.
Proof.
  induction r as [| c r [pre IH]]; simpl; [exists []; reflexivity |].
  destruct (py_isspace c); [exists (c :: pre); simpl; f_equal; exact IH |].
  exists []; reflexivity.
Qed.

Lemma lstrip_hd (r : pystr) (x : N) :
  hd_error (lstrip r) = Some x -> py_isspace x = false.
Proof.
  induction r as [| c r IH]; simpl; [discriminate |].
  destruct (py_isspace c) eqn:E; [exact IH |].
  simpl. intros H; injection H as <-. exact E.
Qed.

Lemma py_strip_edges (s : pystr) :
  (forall x, hd_error (py_strip s) = Some x -> py_isspace x = false)
  /\ (forall y, hd_error (rev (py_strip s)) = Some y -> py_isspace y = false).
Proof.
  unfold py_strip. split.
  - intros x Hx. apply (lstrip_hd s).
    destruct (lstrip_suffix (rev (lstrip s))) as [pre Hpre].
    assert (E : lstrip s = rev (lstrip (rev (lstrip s))) ++ rev pre).
    { rewrite <- rev_app_distr, <- Hpre, rev_involutive. reflexivity. }
    rewrite E. destruct (rev (lstrip (rev (lstrip s)))); [discriminate | exact Hx].
  - rewrite rev_involutive. apply lstrip_hd.
Qed.

Lemma py_strip_space (c : pystr) : forallb py_isspace c = true -> py_strip c = [].
Proof.
  intros H. unfold py_strip.
  assert (L : lstrip c = []).
  { induction c as [| x c IH]; simpl in *; [reflexivity |].
    apply andb_true_iff in H as [Hx Hc]. rewrite Hx. exact (IH Hc). }
  rewrite L. reflexivity.
Qed.

(** [(X2)] When the OpenAI client is importable, the key is set and the
    service answers with a first choice holding text [c], the handler
    returns the single text [c.strip()] (no leading or trailing whitespace
    left) after exactly one request, and the fallback is not called. *)
Theorem call_tool_openai_reply (env : Env) (arguments : Dict) (log : list Event)
    (p : JsonVal) (k c : pystr) (rest : list (option pystr))
    (Hp : dict_get arguments (cps "prompt") (JStr []) = p) (Ht : truthy p = true)
    (Hi : openai_importable env = true) (Hk : openai_api_key env = Some k)
    (Hne : k <> [])
    (Hc : completion env k (openai_request p) = Ok (Some c :: rest)) :
  call_tool env TOOL_NAME arguments log
  = (Ok [text_content (py_strip c)],
     EvCompletion k (openai_request p) :: EvTryOpenAI p :: log)
  /\ (forall x, hd_error (py_strip c) = Some x -> py_isspace x = false)
  /\ (forall y, hd_error (rev (py_strip c)) = Some y -> py_isspace y = false).
Proof.
  split; [| apply py_strip_edges].
  rewrite (call_tool_with_prompt env arguments log p Hp Ht).
  rewrite (openai_generate_success env p log k c rest Hi Hk Hne Hc). reflexivity.
Qed.

Definition env_reply (reply : pystr) : Env :=
  mkEnv true (Some (cps "sk-test")) (fun _ _ => Ok [Some reply]).

Lemma call_tool_openai_reply_witness :
  call_tool (env_reply (cps "  code  ")) TOOL_NAME [(cps "prompt", JStr (cps "hi"))] []
  = (Ok [text_content (cps "code")],
     [EvCompletion (cps "sk-test") (openai_request (JStr (cps "hi")));
      EvTryOpenAI (JStr (cps "hi"))]).
Proof.
  exact (proj1 (call_tool_openai_reply (env_reply (cps "  code  ")) [(cps "prompt", JStr (cps "hi"))] [] (JStr (cps "hi"))
                  (cps "sk-test") (cps "  code  ") [] eq_refl eq_refl eq_refl eq_refl
                  ltac:(discriminate) eq_refl)).
Defined.

(** [(X3)] A reply made only of whitespace is not a failure: the handler
    returns an empty text item and does not call the fallback. *)
Theorem call_tool_blank_reply (env : Env) (arguments : Dict) (log : list Event)
    (p : JsonVal) (k c : pystr) (rest : list (option pystr))
    (Hp : dict_get arguments (cps "prompt") (JStr []) = p) (Ht : truthy p = true)
    (Hi : openai_importable env = true) (Hk : openai_api_key env = Some k)
    (Hne : k <> [])
    (Hc : completion env k (openai_request p) = Ok (Some c :: rest))
    (Hsp : forallb py_isspace c = true) :
  call_tool env TOOL_NAME arguments log
  = (Ok [text_content []], EvCompletion k (openai_request p) :: EvTryOpenAI p :: log).
Proof.
  rewrite (call_tool_with_prompt env arguments log p Hp Ht).
  rewrite (openai_generate_success env p log k c rest Hi Hk Hne Hc).
  rewrite py_strip_space by exact Hsp. reflexivity.
Qed.

Lemma call_tool_blank_reply_witness :
  call_tool (env_reply (cps " ")) TOOL_NAME [(cps "prompt", JStr (cps "hi"))] []
  = (Ok [text_content []],
     [EvCompletion (cps "sk-test") (openai_request (JStr (cps "hi")));
      EvTryOpenAI (JStr (cps "hi"))]).
Proof.
  exact (call_tool_blank_reply (env_reply (cps " ")) [(cps "prompt", JStr (cps "hi"))] [] (JStr (cps "hi"))
           (cps "sk-test") (cps " ") [] eq_refl eq_refl eq_refl eq_refl
           ltac:(discriminate) eq_refl eq_refl).
Defined.

(** [(X4)] Without the OpenAI client, or with [OPENAI_API_KEY] unset or
    empty, no request is sent: the handler goes straight to the fallback
    and returns its script. *)
Theorem call_tool_no_credentials (env : Env) (arguments : Dict) (log : list Event)
    (p : JsonVal)
    (Hp : dict_get arguments (cps "prompt") (JStr []) = p) (Ht : truthy p = true)
    (Hu : openai_importable env = false \/ openai_api_key env = None
          \/ openai_api_key env = Some []) :
  call_tool env TOOL_NAME arguments log
  = (Ok [text_content (generate_basic_overlay_code p)],
     EvBasic p :: EvTryOpenAI p :: log).
Proof.
  rewrite (call_tool_with_prompt env arguments log p Hp Ht).
  destruct (openai_generate_unavailable env p log Hu) as [e ->]. reflexivity.
Qed.

Lemma call_tool_no_credentials_witness :
  call_tool (mkEnv true (Some []) (fun _ _ => Ok [Some (cps "x")])) TOOL_NAME
    [(cps "prompt", JStr (cps "a blue line"))] []
  = (Ok [text_content (generate_basic_overlay_code (JStr (cps "a blue line")))],
     [EvBasic (JStr (cps "a blue line")); EvTryOpenAI (JStr (cps "a blue line"))]).
Proof.
  exact (call_tool_no_credentials (mkEnv true (Some []) (fun _ _ => Ok [Some (cps "x")]))
           [(cps "prompt", JStr (cps "a blue line"))] [] (JStr (cps "a blue line"))
           eq_refl eq_refl (or_intror (or_intror eq_refl))).
Defined.

(** [(X5)] A service error, a reply without choices or a first choice
    without text content sends the handler to the fallback after exactly
    one request. *)
Theorem call_tool_bad_reply (env : Env) (arguments : Dict) (log : list Event)
    (p : JsonVal) (k : pystr)
    (Hp : dict_get arguments (cps "prompt") (JStr []) = p) (Ht : truthy p = true)
    (Hi : openai_importable env = true) (Hk : openai_api_key env = Some k)
    (Hne : k <> [])
    (Hc : (exists e, completion env k (openai_request p) = Err e)
          \/ completion env k (openai_request p) = Ok []
          \/ (exists rest, completion env k (openai_request p) = Ok (None :: rest))) :
  call_tool env TOOL_NAME arguments log
  = (Ok [text_content (generate_basic_overlay_code p)],
     EvBasic p :: EvCompletion k (openai_request p) :: EvTryOpenAI p :: log).
Proof.
  rewrite (call_tool_with_prompt env arguments log p Hp Ht).
  destruct (openai_generate_bad_reply env p log k Hi Hk Hne Hc) as [e ->].
  reflexivity.
Qed.

Lemma call_tool_bad_reply_witness :
  call_tool (mkEnv true (Some (cps "sk")) (fun _ _ => Ok [])) TOOL_NAME
    [(cps "prompt", JStr (cps "oval"))] []
  = (Ok [text_content (generate_basic_overlay_code (JStr (cps "oval")))],
     [EvBasic (JStr (cps "oval"));
      EvCompletion (cps "sk") (openai_request (JStr (cps "oval")));
      EvTryOpenAI (JStr (cps "oval"))]).
Proof.
  exact (call_tool_bad_reply (mkEnv true (Some (cps "sk")) (fun _ _ => Ok []))
           [(cps "prompt", JStr (cps "oval"))] [] (JStr (cps "oval")) (cps "sk")
           eq_refl eq_refl eq_refl eq_refl ltac:(discriminate)
           (or_intror (or_introl eq_refl))).
Defined.

(** [(X6)] Any falsy [prompt] value, not only the empty string ([null],
    [false], [0], [[]], [{}]), is answered with ["ERROR: No prompt
    provided"] and nothing is invoked. *)
Theorem call_tool_falsy_prompt (env : Env) (arguments : Dict) (log : list Event)
    (v : JsonVal)
    (Hv : dict_lookup arguments (cps "prompt") = Some v) (Hf : truthy v = false) :
  call_tool env TOOL_NAME arguments log
  = (Ok [text_content (cps "ERROR: No prompt provided")], log).
Proof.
  rewrite call_tool_known. cbv zeta. unfold dict_get. rewrite Hv, Hf. reflexivity.
Qed.

Lemma call_tool_falsy_prompt_witness :
  call_tool env_no_openai TOOL_NAME [(cps "prompt", JInt 0)] []
  = (Ok [text_content (cps "ERROR: No prompt provided")], []).
Proof.
  exact (call_tool_falsy_prompt env_no_openai [(cps "prompt", JInt 0)] [] (JInt 0)
           eq_refl eq_refl).
Defined.

(** [(X7)] A truthy [prompt] that is not a string (a number, [true], a
    non-empty list or object) makes the fallback fail on [prompt.lower()]:
    when the OpenAI path fails, the handler returns the fallback's error
    text ["ERROR: Could not generate basic code - '<type>' object has no
    attribute 'lower'"]. *)
Theorem call_tool_non_string_prompt (env : Env) (arguments : Dict)
    (log log' : list Event) (v : JsonVal) (e : PyExc)
    (Hp : dict_get arguments (cps "prompt") (JStr []) = v) (Ht : truthy v = true)
    (Hs : forall s, v <> JStr s)
    (Hf : openai_generate env v log = (Err e, log')) :
  call_tool env TOOL_NAME arguments log
  = (Ok [text_content (cps ("ERROR: Could not generate basic code - '" ++ type_name v
                            ++ "' object has no attribute 'lower'"))],
     EvBasic v :: log').
Proof.
  rewrite (call_tool_with_prompt env arguments log v Hp Ht), Hf.
  destruct v; try (exfalso; eapply Hs; reflexivity); reflexivity.
Qed.

Lemma call_tool_non_string_prompt_witness :
  call_tool env_no_openai TOOL_NAME [(cps "prompt", JInt 5)] []
  = (Ok [text_content (cps "ERROR: Could not generate basic code - 'int' object has no attribute 'lower'")],
     [EvBasic (JInt 5); EvTryOpenAI (JInt 5)]).
Proof.
  exact (call_tool_non_string_prompt env_no_openai [(cps "prompt", JInt 5)] []
           [EvTryOpenAI (JInt 5)] (JInt 5)
           (mkExc "ModuleNotFoundError" (cps "No module named 'openai'"))
           eq_refl eq_refl ltac:(discriminate) eq_refl).
Defined.

(** [(X8)] What one call of the handler invokes, in order: nothing, or one
    OpenAI attempt, possibly followed by one request (always model
    [gpt-4o-mini], temperature 0, the system prompt and the user's prompt
    unchanged) and then at most one fallback call, never before the
    attempt. *)
Theorem call_tool_invocations (env : Env) (name : pystr) (arguments : Dict)
    (log : list Event) :
  let p := dict_get arguments (cps "prompt") (JStr []) in
  exists new, snd (call_tool env name arguments log) = new ++ log
    /\ (new = [] \/ new = [EvTryOpenAI p] \/ new = [EvBasic p; EvTryOpenAI p]
        \/ exists k, new = [EvCompletion k (openai_request p); EvTryOpenAI p]
                     \/ new = [EvBasic p; EvCompletion k (openai_request p);
                               EvTryOpenAI p]).
Proof.
  intros p.
  destruct (pystr_eqb name TOOL_NAME) eqn:E.
  - apply pystr_eqb_eq in E. subst name.
    destruct (truthy p) eqn:Ht.
    + rewrite (call_tool_with_prompt env arguments log p eq_refl Ht).
      destruct (openai_generate_trace env p log) as [new [Hl Hn]].
      destruct (openai_generate env p log) as [[code | e] l]; simpl in Hl; subst l.
      * exists new. split; [reflexivity |].
        destruct Hn as [-> | [k ->]]; [right; left; reflexivity |].
        right; right; right. exists k. left. reflexivity.
      * exists (EvBasic p :: new). split; [reflexivity |].
        destruct Hn as [-> | [k ->]]; [right; right; left; reflexivity |].
        right; right; right. exists k. right. reflexivity.
    + rewrite call_tool_known. cbv zeta. fold p. rewrite Ht.
      exists []. split; [reflexivity | left; reflexivity].
  - assert (Hn : name <> TOOL_NAME)
      by (intros H; subst name; rewrite pystr_eqb_refl in E; discriminate).
    rewrite (call_tool_unknown_name env name arguments log Hn).
    exists []. split; [reflexivity | left; reflexivity].
Qed.


